(** * ToDo-List-TS: the todo form, its validator and the App component's handlers

    A shallow embedding of [src/App.tsx]: the [Todo] record, the [todoSchema]
    title validator, the request functions of the three mutations, the event
    handlers of the [App] component and the part of its view that carries the
    edit dialogs.  Handlers are written in a small state monad over a
    [World]: the component's React state, its two forms, the query cache and
    a log of what the component did to its environment (requests sent,
    notices shown, recognition sessions started).  The earlier revision of
    the component has the same schema, mutations and handlers, without the
    voice input. *)

From Stdlib Require Import String List ZArith Bool Arith Lia.
Import ListNotations.
Local Open Scope string_scope.
Local Open Scope list_scope.

(* ===================================================================== *)
(** ** Data model *)
(* ===================================================================== *)

(** [interface Todo].  [id] and [progress] are JS numbers holding integers;
    the two timestamps are the strings [Date.prototype.toISOString] makes. *)
Module Todo.
Record t : Type := mk {
  id : Z;
  title : string;
  createdAt : string;
  updatedAt : string;
  completed : bool;
  progress : Z
}.

Definition eqb (a b : t) : bool :=
  (id a =? id b)%Z && String.eqb (title a) (title b)
  && String.eqb (createdAt a) (createdAt b)
  && String.eqb (updatedAt a) (updatedAt b)
  && Bool.eqb (completed a) (completed b)
  && (progress a =? progress b)%Z.
End Todo.

(** [Omit<Todo, "id" | "createdAt" | "updatedAt">], the argument of
    [createMutation]. *)
Module NewTodo.
Record t : Type := mk {
  title : string;
  completed : bool;
  progress : Z
}.
End NewTodo.

(** The JSON body of [POST /todos]: [{...newTodo, createdAt, updatedAt}]. *)
Module CreateBody.
Record t : Type := mk {
  title : string;
  completed : bool;
  progress : Z;
  createdAt : string;
  updatedAt : string
}.
End CreateBody.

(** The calls of [fetch] the three mutations make. *)
Inductive Request : Type :=
| POST_todos (body : CreateBody.t)
| PUT_todos (id : Z) (body : Todo.t)
| DELETE_todos (id : Z)
| GET_todos.

(** A timestamp [a] is later than [b].  On the fixed-width strings of
    [toISOString] the order of the strings is the order of the instants. *)
Definition later (a b : string) : bool := String.ltb b a.

(* ===================================================================== *)
(** ** The schema library, as far as [todoSchema] uses it *)
(* ===================================================================== *)

Module Zod.
Inductive ZodIssueCode : Type := too_small | too_big.

Record ZodIssue : Type := mkIssue {
  code : ZodIssueCode;
  message : string;
  path : list string
}.

(** The checks a [z.string()] accumulates. *)
Inductive ZodStringCheck : Type :=
| check_min (value : nat) (message : string)
| check_max (value : nat) (message : string).

Definition ZodString : Type := list ZodStringCheck.

Definition string : ZodString := [].
Definition min (value : nat) (message : String.string) (s : ZodString) : ZodString :=
  s ++ [check_min value message].
Definition max (value : nat) (message : String.string) (s : ZodString) : ZodString :=
  s ++ [check_max value message].

(** One round of the loop over the checks: a [min] check adds an issue
    when [data.length < value], a [max] check when [data.length > value].
    [String.length] counts the units of the string, as [.length] does. *)
Definition runCheck (p : list String.string) (data : String.string)
    (check : ZodStringCheck) : list ZodIssue :=
  match check with
  | check_min value msg =>
      if (String.length data <? value)%nat then [mkIssue too_small msg p] else []
  | check_max value msg =>
      if (value <? String.length data)%nat then [mkIssue too_big msg p] else []
  end.

(** Every check runs; the issues come out in the order of the checks. *)
Definition parseString (s : ZodString) (p : list String.string)
    (data : String.string) : list ZodIssue :=
  flat_map (runCheck p data) s.

(** The result of [safeParse]; a [ZodError] carries at least one issue. *)
Inductive SafeParseReturnType (A : Type) : Type :=
| success (data : A)
| error (issue : ZodIssue) (more : list ZodIssue).
Arguments success {A} data.
Arguments error {A} issue more.
End Zod.

(** [z.infer<typeof todoSchema>]: the values of either form. *)
Record FormValues : Type := mkValues { title : string }.

(** [z.string().min(3, ...).max(20, ...)] *)
Definition titleSchema : Zod.ZodString :=
  Zod.max 20 "Title must be at most 20 characters"
    (Zod.min 3 "Title must be at least 3 characters" Zod.string).

(** [todoSchema = z.object({ title: ... })], applied to form values. *)
Definition todoSchema (input : FormValues) : Zod.SafeParseReturnType FormValues :=
  match Zod.parseString titleSchema ["title"] (title input) with
  | [] => Zod.success (mkValues (title input))
  | issue :: more => Zod.error issue more
  end.

(** The validator accepts a candidate title. *)
Definition accepts (candidate : string) : bool :=
  match todoSchema (mkValues candidate) with
  | Zod.success _ => true
  | Zod.error _ _ => false
  end.

(* ===================================================================== *)
(** ** The form library, as far as the two forms use it *)
(* ===================================================================== *)

(** [errors.title] of a form. *)
Record FieldError : Type := mkFieldError {
  type : Zod.ZodIssueCode;
  message : string
}.

(** What [useForm] returns, cut down to the values and the error of the
    one field.  [errors] is the outcome of the latest submission. *)
Record UseForm : Type := mkForm {
  values : FormValues;
  errors : option FieldError
}.

Definition defaultValues : FormValues := mkValues EmptyString.
Definition useForm : UseForm := mkForm defaultValues None.

(** [zodResolver(todoSchema)]: the parsed data, or for the field the code
    and message of its first issue. *)
Definition zodResolver (input : FormValues) : FormValues + FieldError :=
  match todoSchema input with
  | Zod.success data => inl data
  | Zod.error issue _ => inr (mkFieldError (Zod.code issue) (Zod.message issue))
  end.

(** The message shown under the field for a candidate title, if any. *)
Definition rejection (candidate : string) : option string :=
  match zodResolver (mkValues candidate) with
  | inl _ => None
  | inr e => Some (message e)
  end.

(** The two errors the resolver can give the field. *)
Definition tooShort : FieldError :=
  mkFieldError Zod.too_small "Title must be at least 3 characters".
Definition tooLong : FieldError :=
  mkFieldError Zod.too_big "Title must be at most 20 characters".

(* ===================================================================== *)
(** ** The world of the component *)
(* ===================================================================== *)

(** The settings [startVoiceInput] gives a recognition object. *)
Record SpeechRecognition : Type := mkRecognition {
  lang : string;
  continuous : bool;
  interimResults : bool
}.

Record World : Type := mkWorld {
  (* useState *)
  editingTodo : option Todo.t;
  isEditDialogOpen : bool;
  isListening : bool;
  (* useForm *)
  form : UseForm;
  editForm : UseForm;
  (* useQuery: [None] while [isLoading] *)
  todos : option (list Todo.t);
  (* what the component did to its environment *)
  dates : nat;                          (* evaluations of [new Date()] so far *)
  requests : list Request;              (* calls of [fetch], oldest first *)
  alerts : list string;                 (* calls of [alert], oldest first *)
  recognitions : list SpeechRecognition (* calls of [recognition.start()] *)
}.

(** What the host gives the component: the reading of the [n]-th
    [new Date().toISOString()], and whether [window] has the
    [webkitSpeechRecognition] property. *)
Record Env : Type := mkEnv {
  toISOString : nat -> string;
  webkitSpeechRecognition_in_window : bool
}.

Definition set_editingTodo (v : option Todo.t) (w : World) : World :=
  mkWorld v (isEditDialogOpen w) (isListening w) (form w) (editForm w)
    (todos w) (dates w) (requests w) (alerts w) (recognitions w).
Definition set_isEditDialogOpen (v : bool) (w : World) : World :=
  mkWorld (editingTodo w) v (isListening w) (form w) (editForm w)
    (todos w) (dates w) (requests w) (alerts w) (recognitions w).
Definition set_isListening (v : bool) (w : World) : World :=
  mkWorld (editingTodo w) (isEditDialogOpen w) v (form w) (editForm w)
    (todos w) (dates w) (requests w) (alerts w) (recognitions w).
Definition set_form (v : UseForm) (w : World) : World :=
  mkWorld (editingTodo w) (isEditDialogOpen w) (isListening w) v (editForm w)
    (todos w) (dates w) (requests w) (alerts w) (recognitions w).
Definition set_editForm (v : UseForm) (w : World) : World :=
  mkWorld (editingTodo w) (isEditDialogOpen w) (isListening w) (form w) v
    (todos w) (dates w) (requests w) (alerts w) (recognitions w).
Definition set_todos (v : option (list Todo.t)) (w : World) : World :=
  mkWorld (editingTodo w) (isEditDialogOpen w) (isListening w) (form w)
    (editForm w) v (dates w) (requests w) (alerts w) (recognitions w).
Definition set_dates (v : nat) (w : World) : World :=
  mkWorld (editingTodo w) (isEditDialogOpen w) (isListening w) (form w)
    (editForm w) (todos w) v (requests w) (alerts w) (recognitions w).
Definition set_requests (v : list Request) (w : World) : World :=
  mkWorld (editingTodo w) (isEditDialogOpen w) (isListening w) (form w)
    (editForm w) (todos w) (dates w) v (alerts w) (recognitions w).
Definition set_alerts (v : list string) (w : World) : World :=
  mkWorld (editingTodo w) (isEditDialogOpen w) (isListening w) (form w)
    (editForm w) (todos w) (dates w) (requests w) v (recognitions w).
Definition set_recognitions (v : list SpeechRecognition) (w : World) : World :=
  mkWorld (editingTodo w) (isEditDialogOpen w) (isListening w) (form w)
    (editForm w) (todos w) (dates w) (requests w) (alerts w) v.

(** The component when it mounts: nothing is being edited, the dialog is
    closed, nobody listens, both forms hold their default values, and the
    list query has sent its first request. *)
Definition mount : World :=
  mkWorld None false false useForm useForm None 0 [GET_todos] [] [].

(** *** The monad of handlers *)

Definition App (A : Type) : Type := Env -> World -> A * World.

Definition ret {A : Type} (a : A) : App A := fun _ w => (a, w).
Definition bind {A B : Type} (m : App A) (k : A -> App B) : App B :=
  fun env w => let (a, w') := m env w in k a env w'.
Definition exec {A : Type} (m : App A) (env : Env) (w : World) : World :=
  snd (m env w).

Declare Scope app_scope.
Delimit Scope app_scope with app.
Notation "x <- m ;; k" := (bind m (fun x => k))
  (at level 61, m at next level, right associativity) : app_scope.
Notation "m ;; k" := (bind m (fun _ => k))
  (at level 61, right associativity) : app_scope.
Local Open Scope app_scope.

Definition read {A : Type} (f : World -> A) : App A := fun _ w => (f w, w).
Definition modify (f : World -> World) : App unit := fun _ w => (tt, f w).

(** [new Date().toISOString()] *)
Definition new_Date_toISOString : App string :=
  fun env w => (toISOString env (dates w), set_dates (S (dates w)) w).

Definition fetch (r : Request) : App unit :=
  modify (fun w => set_requests (requests w ++ [r]) w).

Definition alert (msg : string) : App unit :=
  modify (fun w => set_alerts (alerts w ++ [msg]) w).

Definition setEditingTodo (v : option Todo.t) : App unit := modify (set_editingTodo v).
Definition setIsEditDialogOpen (v : bool) : App unit := modify (set_isEditDialogOpen v).
Definition setIsListening (v : bool) : App unit := modify (set_isListening v).

Definition ask : App Env := fun env w => (env, w).

(* ===================================================================== *)
(** ** The forms *)
(* ===================================================================== *)

(** The two forms of the component: [form] (create) and [editForm]. *)
Inductive FormRef : Type := createForm | editingForm.

Definition getForm (f : FormRef) (w : World) : UseForm :=
  match f with
  | createForm => form w
  | editingForm => editForm w
  end.

Definition putForm (f : FormRef) (v : UseForm) (w : World) : World :=
  match f with
  | createForm => set_form v w
  | editingForm => set_editForm v w
  end.

(** [f.reset()]: back to the default values, errors cleared. *)
Definition reset (f : FormRef) : App unit := modify (putForm f useForm).

(** [f.setValue("title", v)]: the value changes, nothing is validated. *)
Definition setValue (f : FormRef) (v : string) : App unit :=
  modify (fun w => putForm f (mkForm (mkValues v) (errors (getForm f w))) w).

(** [f.handleSubmit(onValid)]: the resolver runs on the form's values; with
    no error [onValid] gets the parsed data, otherwise the error is kept
    in the form and [onValid] is not called. *)
Definition handleSubmit (f : FormRef) (onValid : FormValues -> App unit) : App unit :=
  input <- read (fun w => values (getForm f w)) ;;
  match zodResolver input with
  | inl data =>
      modify (fun w => putForm f (mkForm (values (getForm f w)) None) w) ;;
      onValid data
  | inr e =>
      modify (fun w => putForm f (mkForm (values (getForm f w)) (Some e)) w)
  end.

(* ===================================================================== *)
(** ** The mutations *)
(* ===================================================================== *)

(** [createMutation.mutate(newTodo)]: one [POST], its body the new todo
    with two readings of the clock. *)
Definition createMutation_mutate (newTodo : NewTodo.t) : App unit :=
  created <- new_Date_toISOString ;;
  updated <- new_Date_toISOString ;;
  fetch (POST_todos
    (CreateBody.mk (NewTodo.title newTodo) (NewTodo.completed newTodo)
       (NewTodo.progress newTodo) created updated)).

(** The body of [PUT]: [{...updatedTodo, updatedAt: now}]. *)
Definition updateBody (updatedTodo : Todo.t) (now : string) : Todo.t :=
  Todo.mk (Todo.id updatedTodo) (Todo.title updatedTodo)
    (Todo.createdAt updatedTodo) now
    (Todo.completed updatedTodo) (Todo.progress updatedTodo).

(** [updateMutation.mutate(updatedTodo)] *)
Definition updateMutation_mutate (updatedTodo : Todo.t) : App unit :=
  now <- new_Date_toISOString ;;
  fetch (PUT_todos (Todo.id updatedTodo) (updateBody updatedTodo now)).

(** [deleteMutation.mutate(id)] *)
Definition deleteMutation_mutate (id : Z) : App unit :=
  fetch (DELETE_todos id).

(** [onSuccess] of each mutation: the list, which is there by the time a
    mutation can have been sent, is fetched again. *)
Definition invalidateQueries : App unit := fetch GET_todos.

(* ===================================================================== *)
(** ** The handlers of [App] *)
(* ===================================================================== *)

Definition onSubmit (data : FormValues) : App unit :=
  createMutation_mutate (NewTodo.mk (title data) false 0%Z) ;;
  reset createForm.

(** [{ ...editingTodo, title: data.title }] *)
Definition withTitle (todo : Todo.t) (newTitle : string) : Todo.t :=
  Todo.mk (Todo.id todo) newTitle (Todo.createdAt todo) (Todo.updatedAt todo)
    (Todo.completed todo) (Todo.progress todo).

Definition onEditSubmit (data : FormValues) : App unit :=
  editing <- read editingTodo ;;
  match editing with
  | Some todo =>
      updateMutation_mutate (withTitle todo (title data)) ;;
      setEditingTodo None ;;
      setIsEditDialogOpen false ;;
      reset editingForm
  | None => ret tt
  end.

Definition startVoiceInput : App unit :=
  env <- ask ;;
  if negb (webkitSpeechRecognition_in_window env) then
    alert "Speech recognition not supported"
  else
    modify (fun w =>
      set_recognitions (recognitions w ++ [mkRecognition "en-US" false false]) w).

Definition recognition_onstart : App unit := setIsListening true.
Definition recognition_onresult (transcript : string) : App unit :=
  setValue createForm transcript ;;
  setIsListening false.
Definition recognition_onerror : App unit := setIsListening false.
Definition recognition_onend : App unit := setIsListening false.

(** [{ ...todo, completed: !todo.completed }] *)
Definition toggled (todo : Todo.t) : Todo.t :=
  Todo.mk (Todo.id todo) (Todo.title todo) (Todo.createdAt todo)
    (Todo.updatedAt todo) (negb (Todo.completed todo)) (Todo.progress todo).

Definition toggleCompleted (todo : Todo.t) : App unit :=
  updateMutation_mutate (toggled todo).

(** [onClick] of a row's edit button. *)
Definition onClickEdit (todo : Todo.t) : App unit :=
  setEditingTodo (Some todo) ;;
  setValue editingForm (Todo.title todo) ;;
  setIsEditDialogOpen true.

(** The request a handler's mutation sent last. *)
Definition lastRequest (w : World) : option Request := last (map Some (requests w)) None.

(* ===================================================================== *)
(** ** The view *)
(* ===================================================================== *)

(** [<Dialog open={isEditDialogOpen} ...>], with the field of the edit form
    its content shows. *)
Record DialogElement : Type := mkDialog {
  open : bool;
  editInput : string
}.

(** One [<Card key={todo.id}>] of [todos.map]. *)
Record CardElement : Type := mkCard {
  key : Z;
  checked : bool;
  cardTitle : string;
  lineThrough : bool;
  dialog : DialogElement;
  created : string;
  updated : string;
  progressValue : Z
}.

Record View : Type := mkView {
  input : string;
  formMessage : option string;
  micDisabled : bool;
  cards : list CardElement
}.

Definition card (w : World) (todo : Todo.t) : CardElement :=
  mkCard (Todo.id todo) (Todo.completed todo) (Todo.title todo)
    (Todo.completed todo)
    (mkDialog (isEditDialogOpen w) (title (values (editForm w))))
    (Todo.createdAt todo) (Todo.updatedAt todo) (Todo.progress todo).

(** What [App] returns; [None] stands for the skeleton shown while the
    list is loading. *)
Definition render (w : World) : option View :=
  match todos w with
  | None => None
  | Some data =>
      Some (mkView (title (values (form w)))
              (option_map message (errors (form w)))
              (isListening w)
              (map (card w) data))
  end.

(** The dialogs of the view that are open. *)
Definition openDialogs (w : World) : list DialogElement :=
  match render w with
  | None => []
  | Some v => filter open (map dialog (cards v))
  end.

(* ===================================================================== *)
(** ** Events *)
(* ===================================================================== *)

(** What the user does, what a recognition reports, and the answers of
    the store the component acts on.  The traces are those on which the
    list query succeeds: its failure is not among the events. *)
Inductive Event : Type :=
| Change (f : FormRef) (text : string)   (* typing into a form's field *)
| Submit (f : FormRef)                   (* the form's submit event *)
| ClickEdit (todo : Todo.t)              (* a row's edit button, the dialog's trigger *)
| OpenChange (v : bool)                  (* the dialog asks to open or close *)
| CheckedChange (todo : Todo.t)          (* a row's checkbox *)
| ClickDelete (todo : Todo.t)            (* a row's delete button *)
| ClickMic                               (* the microphone button *)
| SessionStarted                         (* recognition.onstart *)
| ResultAvailable (transcript : string)  (* recognition.onresult *)
| SessionError                           (* recognition.onerror *)
| SessionEnded                           (* recognition.onend *)
| MutationSuccess                        (* a mutation's onSuccess *)
| QueryData (data : list Todo.t).        (* the list query resolves *)

(** The handler of each event.  A row's edit button is the child of its
    dialog's trigger: its own [onClick] runs, then the trigger asks the
    dialog to open, which arrives at [onOpenChange]. *)
Definition handler (e : Event) : App unit :=
  match e with
  | Change f text => setValue f text
  | Submit createForm => handleSubmit createForm onSubmit
  | Submit editingForm => handleSubmit editingForm onEditSubmit
  | ClickEdit todo => onClickEdit todo ;; setIsEditDialogOpen true
  | OpenChange v => setIsEditDialogOpen v
  | CheckedChange todo => toggleCompleted todo
  | ClickDelete todo => deleteMutation_mutate (Todo.id todo)
  | ClickMic => startVoiceInput
  | SessionStarted => recognition_onstart
  | ResultAvailable transcript => recognition_onresult transcript
  | SessionError => recognition_onerror
  | SessionEnded => recognition_onend
  | MutationSuccess => invalidateQueries
  | QueryData data => modify (set_todos (Some data))
  end.

Definition step (env : Env) (w : World) (e : Event) : World :=
  exec (handler e) env w.

Definition run (env : Env) (es : list Event) (w : World) : World :=
  fold_left (step env) es w.

(** *** Which events the view offers *)

Definition loaded (w : World) : bool :=
  match todos w with Some _ => true | None => false end.

Definition rendered (todo : Todo.t) (w : World) : bool :=
  match todos w with
  | Some data => existsb (Todo.eqb todo) data
  | None => false
  end.

Definition dialogShown (w : World) : bool :=
  match openDialogs w with [] => false | _ :: _ => true end.

(** Modelled from the spec: the dialog component is not among the sources;
    "Transition to open occurs when a user selects edit on a row",
    "Transition to closed occurs either on successful submission [...] or
    explicit dismissal", and "opening a new one while one is open is not
    exercised by this design".  So the component asks to open only with a
    click on a row's edit button while no dialog is open, and asks to close
    only while it is shown.  The other guards are read off the view: no
    control exists while the list is loading, the microphone button is
    [disabled={isListening}], the edit form lives in the dialog's content,
    and the recognition events belong to a session that was started. *)
Definition enabled (w : World) (e : Event) : bool :=
  match e with
  | Change createForm _ | Submit createForm => loaded w
  | Change editingForm _ | Submit editingForm => dialogShown w
  | ClickEdit todo => rendered todo w && negb (isEditDialogOpen w)
  | OpenChange v => negb v && dialogShown w
  | CheckedChange todo | ClickDelete todo => rendered todo w
  | ClickMic => loaded w && negb (isListening w)
  | SessionStarted | ResultAvailable _ | SessionError | SessionEnded =>
      match recognitions w with [] => false | _ :: _ => true end
  | MutationSuccess | QueryData _ => true
  end.

(** Every event of the trace is offered in the state it arrives in. *)
Fixpoint admissible (env : Env) (es : list Event) (w : World) : bool :=
  match es with
  | [] => true
  | e :: es' => enabled w e && admissible env es' (step env w e)
  end.

(** *** What a trace says about itself *)

(** The todo of the latest click on an edit button. *)
Fixpoint lastSelected (es : list Event) (acc : option Todo.t) : option Todo.t :=
  match es with
  | [] => acc
  | ClickEdit todo :: es' => lastSelected es' (Some todo)
  | _ :: es' => lastSelected es' acc
  end.






(* ===================================================================== *)
(** ** Sample inputs *)
(* ===================================================================== *)

(** A host without speech recognition whose clock advances one millisecond
    per reading. *)
Definition hostClock (n : nat) : string :=
  match n with
  | 0 => "2026-11-03T09:00:00.000Z"
  | 1 => "2026-11-03T09:00:00.001Z"
  | 2 => "2026-11-03T09:00:00.002Z"
  | _ => "2026-11-03T09:00:00.003Z"
  end.

Definition silentHost : Env := mkEnv hostClock false.
Definition speakingHost : Env := mkEnv hostClock true.

(** Two records as the store returns them.  The second was last written by
    a client whose clock runs five seconds ahead of this host's. *)
Definition buyMilk : Todo.t :=
  Todo.mk 1 "Buy milk" "2026-11-02T18:30:00.000Z" "2026-11-02T18:30:00.000Z" false 0.
Definition walkDog : Todo.t :=
  Todo.mk 2 "Walk the dog" "2026-11-03T08:59:00.000Z" "2026-11-03T09:00:05.000Z" true 40.

(** A world with the list loaded and text in a form. *)
Definition typing (f : FormRef) (text : string) : World :=
  run silentHost [QueryData [buyMilk; walkDog]; Change f text] mount.

(** The same with the dialog open on [buyMilk] and a new title typed. *)
Definition editing (text : string) : World :=
  run silentHost
    [QueryData [buyMilk; walkDog]; ClickEdit buyMilk; Change editingForm text] mount.

(** The world once the list has arrived. *)
Definition listed : World := run silentHost [QueryData [buyMilk; walkDog]] mount.

(** The dialog's transitions as a table: the flag and the selection an
    event leaves behind. *)
Definition dialogAfter (w : World) (e : Event) : bool * option Todo.t :=
  match e with
  | ClickEdit todo => (true, Some todo)
  | OpenChange v => (v, editingTodo w)
  | Submit editingForm =>
      match zodResolver (values (editForm w)), editingTodo w with
      | inl _, Some _ => (false, None)
      | _, _ => (isEditDialogOpen w, editingTodo w)
      end
  | _ => (isEditDialogOpen w, editingTodo w)
  end.

(* ===================================================================== *)
(** ** What a trace leaves behind *)
(* ===================================================================== *)

(** The requests an event makes the component send, as a table. *)
Definition sent (env : Env) (w : World) (e : Event) : list Request :=
  match e with
  | Submit createForm =>
      match zodResolver (values (form w)) with
      | inl data =>
          [POST_todos
             (CreateBody.mk (title data) false 0
                (toISOString env (dates w)) (toISOString env (S (dates w))))]
      | inr _ => []
      end
  | Submit editingForm =>
      match zodResolver (values (editForm w)), editingTodo w with
      | inl data, Some todo =>
          [PUT_todos (Todo.id todo)
             (updateBody (withTitle todo (title data)) (toISOString env (dates w)))]
      | _, _ => []
      end
  | CheckedChange todo =>
      [PUT_todos (Todo.id todo)
         (updateBody (toggled todo) (toISOString env (dates w)))]
  | ClickDelete todo => [DELETE_todos (Todo.id todo)]
  | MutationSuccess => [GET_todos]
  | _ => []
  end.

(** The readings of the clock a request carries: a create request its two,
    an update request the one in [updatedAt] (its [createdAt] is copied
    from the record). *)
Definition stamps (r : Request) : list string :=
  match r with
  | POST_todos body => [CreateBody.createdAt body; CreateBody.updatedAt body]
  | PUT_todos _ body => [Todo.updatedAt body]
  | _ => []
  end.

(** A create request carries a title within the bounds, not completed,
    with no progress; other requests are not constrained. *)
Definition freshTodo (r : Request) : bool :=
  match r with
  | POST_todos body =>
      (3 <=? String.length (CreateBody.title body))%nat
      && (String.length (CreateBody.title body) <=? 20)%nat
      && negb (CreateBody.completed body)
      && (CreateBody.progress body =? 0)%Z
  | _ => true
  end.

(** An update request goes to the URL of the record in its body. *)
Definition addressed (r : Request) : bool :=
  match r with
  | PUT_todos id body => (id =? Todo.id body)%Z
  | _ => true
  end.

Definition isQueryData (e : Event) : bool :=
  match e with QueryData _ => true | _ => false end.

(** What the rows of the view show of the todos: key, title, checkbox and
    progress of each card, in order. *)
Definition rows (w : World) : option (list (Z * string * bool * Z)) :=
  option_map
    (fun v => map (fun c => (key c, cardTitle c, checked c, progressValue c))
                  (cards v))
    (render w).

(** The clicks on the microphone button in a trace. *)
Fixpoint micClicks (es : list Event) : nat :=
  match es with
  | [] => 0
  | ClickMic :: es' => S (micClicks es')
  | _ :: es' => micClicks es'
  end.

(** A record of the store whose title is longer than the form allows. *)
Definition longTitled : Todo.t :=
  Todo.mk 3 "Renew the passport before the trip"
    "2026-11-01T10:00:00.000Z" "2026-11-01T10:00:00.000Z" false 0.

(** The list with that record in it. *)
Definition stored : World := run silentHost [QueryData [buyMilk; longTitled]] mount.

(** A host with speech recognition, in the middle of a session. *)
Definition hearing : World :=
  run speakingHost [QueryData [buyMilk; walkDog]; ClickMic; SessionStarted] mount.


(* ===================================================================== *)
(** ** The title validator *)
(* ===================================================================== *)

(** The issues of a title, check by check. *)
Lemma parseString_titleSchema (p : list string) (s : string) :
  Zod.parseString titleSchema p s =
    (if (String.length s <? 3)%nat
     then [Zod.mkIssue Zod.too_small "Title must be at least 3 characters" p]
     else [])
    ++ (if (20 <? String.length s)%nat
        then [Zod.mkIssue Zod.too_big "Title must be at most 20 characters" p]
        else []).
Proof.
  unfold Zod.parseString, titleSchema, Zod.max, Zod.min, Zod.string.
  cbn [app flat_map Zod.runCheck]. now rewrite app_nil_r.
Qed.

Ltac by_bounds :=
  unfold zodResolver, todoSchema; rewrite parseString_titleSchema;
  match goal with
  | |- context [title ?v] =>
      destruct (Nat.ltb_spec (String.length (title v)) 3);
      destruct (Nat.ltb_spec 20 (String.length (title v)))
  end; try lia; try reflexivity.

Lemma zodResolver_short (v : FormValues) :
  (String.length (title v) < 3)%nat -> zodResolver v = inr tooShort.
Proof. intros H. by_bounds. Qed.

Lemma zodResolver_long (v : FormValues) :
  (20 < String.length (title v))%nat -> zodResolver v = inr tooLong.
Proof. intros H. by_bounds. Qed.

Lemma zodResolver_valid (v : FormValues) :
  (3 <= String.length (title v) <= 20)%nat -> zodResolver v = inl v.
Proof. intros H. by_bounds. now destruct v. Qed.

(** Either the title is too short, or too long, or within the bounds. *)
Lemma length_cases (s : string) :
  (String.length s < 3 \/ 20 < String.length s \/ 3 <= String.length s <= 20)%nat.
Proof. lia. Qed.

(** C1: the title validator accepts a candidate exactly when its length is
    between 3 and 20 inclusive, and a rejected candidate gets the message
    of the bound it violates: "at least 3 characters" below 3, "at most 20
    characters" above 20. *)
Theorem todoSchema_accepts_iff_length (candidate : string) :
  (accepts candidate = true <-> (3 <= String.length candidate <= 20)%nat)
  /\ ((String.length candidate < 3)%nat ->
        accepts candidate = false
        /\ rejection candidate = Some "Title must be at least 3 characters")
  /\ ((20 < String.length candidate)%nat ->
        accepts candidate = false
        /\ rejection candidate = Some "Title must be at most 20 characters").
Proof.
  assert (A : accepts candidate
              = match zodResolver (mkValues candidate) with
                | inl _ => true | inr _ => false end).
  { unfold accepts, zodResolver.
    now destruct (todoSchema (mkValues candidate)). }
  unfold rejection. rewrite A.
  destruct (length_cases candidate) as [H | [H | H]].
  - rewrite (zodResolver_short (mkValues candidate) H). cbn.
    repeat split; try discriminate; try reflexivity; intros; lia.
  - rewrite (zodResolver_long (mkValues candidate) H). cbn.
    repeat split; try discriminate; try reflexivity; intros; lia.
  - rewrite (zodResolver_valid (mkValues candidate) H).
    repeat split; try lia; try reflexivity.
Qed.

Lemma todoSchema_accepts_iff_length_witness :
  (String.length "ab" < 3)%nat
  /\ (20 < String.length "a title of twenty-one")%nat
  /\ accepts "Buy milk" = true
  /\ rejection "ab" = Some "Title must be at least 3 characters"
  /\ rejection "a title of twenty-one" = Some "Title must be at most 20 characters".
Proof.
  split; [cbn; lia|]. split; [cbn; lia|]. split.
  - apply (proj1 (todoSchema_accepts_iff_length "Buy milk")). cbn. lia.
  - split.
    + apply (proj1 (proj2 (todoSchema_accepts_iff_length "ab"))). cbn. lia.
    + apply (proj2 (proj2 (todoSchema_accepts_iff_length "a title of twenty-one"))).
      cbn. lia.
Defined.

(* ===================================================================== *)
(** ** Submitting a form *)
(* ===================================================================== *)

Lemma handleSubmit_invalid env w f onValid e :
  zodResolver (values (getForm f w)) = inr e ->
  exec (handleSubmit f onValid) env w
    = putForm f (mkForm (values (getForm f w)) (Some e)) w.
Proof.
  intros H. unfold handleSubmit, exec, bind, read. cbn. now rewrite H.
Qed.

Lemma handleSubmit_valid env w f onValid data :
  zodResolver (values (getForm f w)) = inl data ->
  exec (handleSubmit f onValid) env w
    = exec (onValid data) env (putForm f (mkForm (values (getForm f w)) None) w).
Proof.
  intros H. unfold handleSubmit, exec, bind, read. cbn. now rewrite H.
Qed.

Lemma step_Submit env w f :
  step env w (Submit f)
    = exec (handleSubmit f match f with
                           | createForm => onSubmit
                           | editingForm => onEditSubmit
                           end) env w.
Proof. now destruct f. Qed.

Lemma requests_putForm f v w : requests (putForm f v w) = requests w.
Proof. now destruct f. Qed.

Lemma getForm_putForm f v w : getForm f (putForm f v w) = v.
Proof. now destruct f. Qed.

(** C2: when the title in a form is shorter than 3 or longer than 20
    characters, submitting that form (create or edit) is rejected: the
    form keeps the error of the violated bound, and no request is sent;
    nothing else in the world changes. *)
Theorem out_of_bounds_submission_rejected env w f :
  (String.length (title (values (getForm f w))) < 3
   \/ 20 < String.length (title (values (getForm f w))))%nat ->
  requests (step env w (Submit f)) = requests w
  /\ exists e,
       (e = tooShort \/ e = tooLong)
       /\ rejection (title (values (getForm f w))) = Some (message e)
       /\ step env w (Submit f)
            = putForm f (mkForm (values (getForm f w)) (Some e)) w.
Proof.
  intros H. rewrite step_Submit.
  assert (R : exists e, (e = tooShort \/ e = tooLong)
                /\ zodResolver (values (getForm f w)) = inr e).
  { destruct H as [H | H].
    - exists tooShort. split; [now left | now apply zodResolver_short].
    - exists tooLong. split; [now right | now apply zodResolver_long]. }
  destruct R as (e & He & R).
  rewrite (handleSubmit_invalid _ _ _ _ _ R). split.
  - apply requests_putForm.
  - exists e. repeat split; try assumption.
    unfold rejection.
    replace (mkValues (title (values (getForm f w)))) with (values (getForm f w))
      by now destruct (values (getForm f w)).
    now rewrite R.
Qed.

Lemma out_of_bounds_submission_rejected_witness :
  (String.length (title (values (getForm editingForm (editing "ab")))) < 3
   \/ 20 < String.length (title (values (getForm editingForm (editing "ab")))))%nat
  /\ requests (step silentHost (editing "ab") (Submit editingForm)) = [GET_todos]
  /\ isEditDialogOpen (step silentHost (editing "ab") (Submit editingForm)) = true.
Proof.
  assert (H : (String.length (title (values (getForm editingForm (editing "ab")))) < 3
   \/ 20 < String.length (title (values (getForm editingForm (editing "ab")))))%nat)
    by (left; cbn; lia).
  split; [exact H|].
  destruct (out_of_bounds_submission_rejected silentHost (editing "ab") editingForm H)
    as (Hr & e & _ & _ & Hs).
  split; [exact Hr | now rewrite Hs].
Defined.

(** C3: when the title in the create form has between 3 and 20 characters,
    submitting the form sends exactly one request, a create request whose
    record has that title, [completed = false], [progress = 0], and as
    [createdAt] and [updatedAt] the two readings of the clock taken while
    the request is built. *)
Theorem valid_title_creates_todo env w :
  (3 <= String.length (title (values (form w))) <= 20)%nat ->
  requests (step env w (Submit createForm))
    = requests w
      ++ [POST_todos
            (CreateBody.mk (title (values (form w))) false 0
               (toISOString env (dates w)) (toISOString env (S (dates w))))].
Proof.
  intros H. rewrite step_Submit.
  rewrite (handleSubmit_valid _ _ createForm _ _ (zodResolver_valid _ H)).
  reflexivity.
Qed.

Lemma valid_title_creates_todo_witness :
  (3 <= String.length (title (values (form (typing createForm "Buy oat milk")))) <= 20)%nat
  /\ requests (step silentHost (typing createForm "Buy oat milk") (Submit createForm))
     = [GET_todos;
        POST_todos (CreateBody.mk "Buy oat milk" false 0
                      "2026-11-03T09:00:00.000Z" "2026-11-03T09:00:00.001Z")].
Proof.
  split; [cbn; lia|].
  apply (valid_title_creates_todo silentHost (typing createForm "Buy oat milk")).
  cbn; lia.
Defined.

(** C5: when a todo is being edited and the edit form holds a title of 3
    to 20 characters, submitting the dialog sends one update request for
    that todo's id whose body has the todo's [id], [completed], [progress]
    and [createdAt], the new title, and the current reading of the clock
    as [updatedAt]. *)
Theorem edit_submission_updates_title env w todo :
  editingTodo w = Some todo ->
  (3 <= String.length (title (values (editForm w))) <= 20)%nat ->
  requests (step env w (Submit editingForm))
    = requests w
      ++ [PUT_todos (Todo.id todo)
            (Todo.mk (Todo.id todo) (title (values (editForm w)))
               (Todo.createdAt todo) (toISOString env (dates w))
               (Todo.completed todo) (Todo.progress todo))].
Proof.
  intros E H. rewrite step_Submit.
  rewrite (handleSubmit_valid _ _ editingForm _ _ (zodResolver_valid _ H)).
  unfold onEditSubmit, exec, bind, read. cbn. rewrite E. reflexivity.
Qed.

Lemma edit_submission_updates_title_witness :
  editingTodo (editing "Buy oat milk") = Some buyMilk
  /\ (3 <= String.length (title (values (editForm (editing "Buy oat milk")))) <= 20)%nat
  /\ requests (step silentHost (editing "Buy oat milk") (Submit editingForm))
     = [GET_todos;
        PUT_todos 1 (Todo.mk 1 "Buy oat milk" "2026-11-02T18:30:00.000Z"
                       "2026-11-03T09:00:00.000Z" false 0)].
Proof.
  split; [reflexivity|]. split; [cbn; lia|].
  apply (edit_submission_updates_title silentHost (editing "Buy oat milk") buyMilk).
  - reflexivity.
  - cbn; lia.
Defined.

(** C10: submitting the edit form while no todo is being edited does
    nothing to the todos: no request is sent, and the dialog's open flag,
    the editing selection and the contents of the edit form stay as they
    were; [onEditSubmit] itself leaves the whole world as it is. *)
Theorem edit_submission_without_todo env w :
  editingTodo w = None ->
  (forall data, exec (onEditSubmit data) env w = w)
  /\ requests (step env w (Submit editingForm)) = requests w
  /\ isEditDialogOpen (step env w (Submit editingForm)) = isEditDialogOpen w
  /\ editingTodo (step env w (Submit editingForm)) = None
  /\ values (editForm (step env w (Submit editingForm))) = values (editForm w).
Proof.
  intros E. split.
  - intros data. unfold onEditSubmit, exec, bind, read. cbn. now rewrite E.
  - rewrite step_Submit.
    destruct (zodResolver (values (getForm editingForm w))) as [data | e] eqn:R.
    + rewrite (handleSubmit_valid _ _ _ _ _ R).
      unfold onEditSubmit, exec, bind, read. cbn. rewrite E. cbn. auto.
    + rewrite (handleSubmit_invalid _ _ _ _ _ R). cbn. auto.
Qed.

Lemma edit_submission_without_todo_witness :
  editingTodo (typing editingForm "Buy oat milk") = None
  /\ requests (step silentHost (typing editingForm "Buy oat milk") (Submit editingForm))
     = [GET_todos]
  /\ title (values (editForm
       (step silentHost (typing editingForm "Buy oat milk") (Submit editingForm))))
     = "Buy oat milk".
Proof.
  split; [reflexivity|].
  destruct (edit_submission_without_todo silentHost
              (typing editingForm "Buy oat milk") eq_refl)
    as (_ & Hr & _ & _ & Hv).
  split; [exact Hr | now rewrite Hv].
Defined.

(* ===================================================================== *)
(** ** Update requests *)
(* ===================================================================== *)

Lemma lastRequest_snoc w rs r : requests w = rs ++ [r] -> lastRequest w = Some r.
Proof.
  intros H. unfold lastRequest. rewrite H, map_app. cbn. apply last_last.
Qed.

(** What [updateMutation.mutate] does to the world: one reading of the
    clock, one [PUT] appended. *)
Lemma updateMutation_mutate_world env w todo :
  exec (updateMutation_mutate todo) env w
    = set_requests
        (requests w
         ++ [PUT_todos (Todo.id todo) (updateBody todo (toISOString env (dates w)))])
        (set_dates (S (dates w)) w).
Proof. reflexivity. Qed.

Lemma toggle_requests env w todo :
  requests (step env w (CheckedChange todo))
    = requests w
      ++ [PUT_todos (Todo.id todo)
            (Todo.mk (Todo.id todo) (Todo.title todo) (Todo.createdAt todo)
               (toISOString env (dates w))
               (negb (Todo.completed todo)) (Todo.progress todo))].
Proof. reflexivity. Qed.

(** A valid edit submission, in full: the request goes out, the selection
    is dropped, the dialog closes and the edit form is reset. *)
Lemma edit_submission_world env w todo :
  editingTodo w = Some todo ->
  (3 <= String.length (title (values (editForm w))) <= 20)%nat ->
  step env w (Submit editingForm)
    = mkWorld None false (isListening w) (form w) useForm (todos w)
        (S (dates w))
        (requests w
         ++ [PUT_todos (Todo.id todo)
               (updateBody (withTitle todo (title (values (editForm w))))
                  (toISOString env (dates w)))])
        (alerts w) (recognitions w).
Proof.
  intros E H. rewrite step_Submit.
  rewrite (handleSubmit_valid _ _ editingForm _ _ (zodResolver_valid _ H)).
  unfold onEditSubmit, exec, bind, read. cbn. rewrite E. reflexivity.
Qed.

(** C4, as the code has it: toggling a todo sends one update request for
    its id whose body keeps [id], [title], [createdAt] and [progress],
    negates [completed], and carries as [updatedAt] the current reading of
    the client's clock, whatever the record's previous [updatedAt] was. *)
Theorem toggle_sends_negated_completed env w todo :
  exists body,
    requests (step env w (CheckedChange todo))
      = requests w ++ [PUT_todos (Todo.id todo) body]
    /\ Todo.id body = Todo.id todo
    /\ Todo.title body = Todo.title todo
    /\ Todo.createdAt body = Todo.createdAt todo
    /\ Todo.progress body = Todo.progress todo
    /\ Todo.completed body = negb (Todo.completed todo)
    /\ Todo.updatedAt body = toISOString env (dates w).
Proof.
  eexists. split; [apply toggle_requests|]. cbn. repeat split.
Qed.

(** C4, as stated, fails: the store returns [walkDog] with an [updatedAt]
    five seconds ahead of this host's clock; toggling it sends an
    [updatedAt] that is earlier than the record's. *)
Lemma toggle_updatedAt_not_later :
  requests (step silentHost listed (CheckedChange walkDog))
    = [GET_todos;
       PUT_todos 2 (Todo.mk 2 "Walk the dog" "2026-11-03T08:59:00.000Z"
                      "2026-11-03T09:00:00.000Z" false 40)]
  /\ Todo.updatedAt walkDog = "2026-11-03T09:00:05.000Z"
  /\ later "2026-11-03T09:00:00.000Z" (Todo.updatedAt walkDog) = false.
Proof. repeat split. Qed.

(** C6: every update the client sends for a record, through the update
    mutation itself, through toggling, or through a valid submission of
    the edit dialog, carries the record's own [createdAt], and as
    [updatedAt] the current reading of the clock. *)
Theorem update_keeps_createdAt env w todo :
  (exists body,
     requests (exec (updateMutation_mutate todo) env w)
       = requests w ++ [PUT_todos (Todo.id todo) body]
     /\ Todo.createdAt body = Todo.createdAt todo
     /\ Todo.updatedAt body = toISOString env (dates w))
  /\ (exists body,
        requests (step env w (CheckedChange todo))
          = requests w ++ [PUT_todos (Todo.id todo) body]
        /\ Todo.createdAt body = Todo.createdAt todo
        /\ Todo.updatedAt body = toISOString env (dates w))
  /\ (editingTodo w = Some todo ->
      (3 <= String.length (title (values (editForm w))) <= 20)%nat ->
      exists body,
        requests (step env w (Submit editingForm))
          = requests w ++ [PUT_todos (Todo.id todo) body]
        /\ Todo.createdAt body = Todo.createdAt todo
        /\ Todo.updatedAt body = toISOString env (dates w)).
Proof.
  split; [|split].
  - rewrite updateMutation_mutate_world. eexists. cbn. repeat split.
  - eexists. split; [apply toggle_requests|]. split; reflexivity.
  - intros E H. rewrite (edit_submission_world env w todo E H).
    eexists. cbn. repeat split.
Qed.

Lemma update_keeps_createdAt_witness :
  editingTodo (editing "Buy oat milk") = Some buyMilk
  /\ (3 <= String.length (title (values (editForm (editing "Buy oat milk")))) <= 20)%nat
  /\ exists body,
       requests (step silentHost (editing "Buy oat milk") (Submit editingForm))
         = requests (editing "Buy oat milk") ++ [PUT_todos 1 body]
       /\ Todo.createdAt body = "2026-11-02T18:30:00.000Z"
       /\ Todo.updatedAt body = "2026-11-03T09:00:00.000Z".
Proof.
  split; [reflexivity|]. split; [cbn; lia|].
  apply (proj2 (proj2 (update_keeps_createdAt silentHost (editing "Buy oat milk") buyMilk))).
  - reflexivity.
  - cbn; lia.
Defined.

(** C9: toggling a todo, and then toggling the record that request
    carried, sends a record whose [completed] is the original's again
    (toggling is an involution on [completed]) and whose [id], [title],
    [createdAt] and [progress] are the original's; only [updatedAt] may
    differ. *)
Theorem toggle_twice_restores_completed env w1 w2 todo :
  exists once twice,
    lastRequest (step env w1 (CheckedChange todo)) = Some (PUT_todos (Todo.id todo) once)
    /\ lastRequest (step env w2 (CheckedChange once)) = Some (PUT_todos (Todo.id todo) twice)
    /\ Todo.completed twice = Todo.completed todo
    /\ Todo.id twice = Todo.id todo
    /\ Todo.title twice = Todo.title todo
    /\ Todo.createdAt twice = Todo.createdAt todo
    /\ Todo.progress twice = Todo.progress todo.
Proof.
  exists (updateBody (toggled todo) (toISOString env (dates w1))).
  exists (updateBody (toggled (updateBody (toggled todo) (toISOString env (dates w1))))
            (toISOString env (dates w2))).
  split; [|split].
  - exact (lastRequest_snoc _ _ _ (toggle_requests env w1 todo)).
  - exact (lastRequest_snoc _ _ _
             (toggle_requests env w2
                (updateBody (toggled todo) (toISOString env (dates w1))))).
  - cbn. rewrite negb_involutive. repeat split.
Qed.

(* ===================================================================== *)
(** ** Traces *)
(* ===================================================================== *)

Lemma run_snoc env es e w : run env (es ++ [e]) w = step env (run env es w) e.
Proof. unfold run. now rewrite fold_left_app. Qed.

Lemma admissible_snoc env es e w :
  admissible env (es ++ [e]) w
    = admissible env es w && enabled (run env es w) e.
Proof.
  revert w. induction es as [| e' es IH]; intros w; cbn.
  - now rewrite andb_true_r.
  - now rewrite IH, andb_assoc.
Qed.

Lemma lastSelected_snoc es e acc :
  lastSelected (es ++ [e]) acc
    = match e with
      | ClickEdit todo => Some todo
      | _ => lastSelected es acc
      end.
Proof.
  revert acc. induction es as [| e' es IH]; intros acc.
  - now destruct e.
  - destruct e'; cbn; apply IH.
Qed.

(** A submission, whatever the resolver says, case by case. *)
Ltac submit_cases w :=
  rewrite step_Submit;
  match goal with
  | |- context [handleSubmit ?f _] =>
      let R := fresh "R" in
      destruct (zodResolver (values (getForm f w))) eqn:R;
      [ rewrite (handleSubmit_valid _ _ _ _ _ R)
      | rewrite (handleSubmit_invalid _ _ _ _ _ R) ]
  end.


(** Only [startVoiceInput] starts a session, and only on a host that has
    the capability. *)
Lemma recognitions_step env w e :
  recognitions (step env w e)
    = match e with
      | ClickMic =>
          if webkitSpeechRecognition_in_window env
          then recognitions w ++ [mkRecognition "en-US" false false]
          else recognitions w
      | _ => recognitions w
      end.
Proof.
  destruct e as [f s | f | t | v | t | t | | | s | | | | d]; try reflexivity.
  - now destruct f.
  - destruct f; submit_cases w; try reflexivity.
    unfold onEditSubmit, exec, bind, read; cbn.
    now destruct (editingTodo w).
  - unfold step, handler, startVoiceInput, exec, bind, ask; cbn.
    now destruct (webkitSpeechRecognition_in_window env).
Qed.

(** The handlers move the dialog as the table says. *)
Lemma dialog_step env w e :
  isEditDialogOpen (step env w e) = fst (dialogAfter w e)
  /\ editingTodo (step env w e) = snd (dialogAfter w e).
Proof.
  destruct e as [f s | f | t | v | t | t | | | s | | | | d];
    try (split; reflexivity).
  - now destruct f.
  - destruct f; submit_cases w; try (split; reflexivity).
    + cbn in R. unfold dialogAfter. rewrite R.
      unfold onEditSubmit, exec, bind, read; cbn.
      destruct (editingTodo w) eqn:E; cbn; rewrite ?E; split; reflexivity.
    + cbn in R. unfold dialogAfter. rewrite R. split; reflexivity.
  - unfold step, handler, startVoiceInput, exec, bind, ask; cbn.
    now destruct (webkitSpeechRecognition_in_window env).
Qed.

(* ===================================================================== *)
(** ** The edit dialog *)
(* ===================================================================== *)

(** Selecting edit on a row opens the dialog for that row's todo and
    puts the row's title into the edit form. *)
Lemma click_edit_opens env w todo :
  isEditDialogOpen (step env w (ClickEdit todo)) = true
  /\ editingTodo (step env w (ClickEdit todo)) = Some todo
  /\ title (values (editForm (step env w (ClickEdit todo)))) = Todo.title todo.
Proof. repeat split. Qed.

(** Dismissal closes the dialog and touches nothing else. *)
Lemma dismissal_closes env w :
  step env w (OpenChange false) = set_isEditDialogOpen false w.
Proof. reflexivity. Qed.

(** While the flag is set, the selection is the todo of the latest click
    on an edit button. *)
Lemma open_dialog_follows_selection env es :
  admissible env es mount = true ->
  isEditDialogOpen (run env es mount) = true ->
  exists todo,
    lastSelected es None = Some todo
    /\ editingTodo (run env es mount) = Some todo.
Proof.
  induction es as [| e es IH] using rev_ind; [discriminate|].
  rewrite admissible_snoc, run_snoc, lastSelected_snoc.
  intros A. apply andb_prop in A. destruct A as [A En].
  specialize (IH A).
  destruct (dialog_step env (run env es mount) e) as [-> ->].
  set (w := run env es mount) in *.
  destruct e as [f s | f | t | v | t | t | | | s | | | | d];
    try exact IH.
  - destruct f; [exact IH|]. unfold dialogAfter.
    destruct (zodResolver (values (editForm w))), (editingTodo w);
      try exact IH. discriminate.
  - intros _. now exists t.
  - cbn in En. cbn. intros ->. discriminate.
Qed.

(** Every row's dialog is bound to the one flag: with the flag set there
    are as many open dialogs as rows. *)
Lemma openDialogs_length w data :
  todos w = Some data ->
  length (openDialogs w) = if isEditDialogOpen w then length data else 0.
Proof.
  intros T. unfold openDialogs, render. rewrite T. cbn [cards].
  rewrite map_map. cbn [dialog card].
  clear T. destruct (isEditDialogOpen w);
    induction data as [| t data IH]; cbn; auto.
Qed.

(** C7, at a list of two todos: the trace is one the view offers, and
    after selecting edit on the first row two dialogs are open, both
    showing the edit form with that row's title. *)
Theorem two_rows_two_open_dialogs :
  admissible silentHost [QueryData [buyMilk; walkDog]; ClickEdit buyMilk] mount = true
  /\ openDialogs (run silentHost [QueryData [buyMilk; walkDog]; ClickEdit buyMilk] mount)
     = [mkDialog true "Buy milk"; mkDialog true "Buy milk"].
Proof. split; reflexivity. Qed.

(* ===================================================================== *)
(** ** Voice input *)
(* ===================================================================== *)










(* ===================================================================== *)
(** ** More on the validator *)
(* ===================================================================== *)

(** What the resolver accepts it hands on unchanged, and only within the
    bounds. *)
Lemma zodResolver_inl (v data : FormValues) :
  zodResolver v = inl data ->
  data = v /\ (3 <= String.length (title v) <= 20)%nat.
Proof.
  intros R. destruct (length_cases (title v)) as [H | [H | H]].
  - rewrite (zodResolver_short v H) in R. discriminate.
  - rewrite (zodResolver_long v H) in R. discriminate.
  - rewrite (zodResolver_valid v H) in R. injection R as <-. now split.
Qed.



(** A rejected title carries exactly one issue: it sits at the path of the
    [title] field, and its code and message are those of the one bound the
    title violates. *)
Theorem rejection_has_one_issue (v : FormValues) issue more :
  todoSchema v = Zod.error issue more ->
  more = []
  /\ Zod.path issue = ["title"]
  /\ ((String.length (title v) < 3)%nat
        /\ Zod.code issue = Zod.too_small
        /\ Zod.message issue = "Title must be at least 3 characters"
      \/ (20 < String.length (title v))%nat
        /\ Zod.code issue = Zod.too_big
        /\ Zod.message issue = "Title must be at most 20 characters").
Proof.
  unfold todoSchema. rewrite parseString_titleSchema.
  destruct (Nat.ltb_spec (String.length (title v)) 3);
    destruct (Nat.ltb_spec 20 (String.length (title v)));
    try lia; cbn; intros E; try discriminate;
    injection E as <- <-; repeat split; auto.
Qed.

Lemma rejection_has_one_issue_witness :
  todoSchema (mkValues "ab")
    = Zod.error (Zod.mkIssue Zod.too_small "Title must be at least 3 characters" ["title"]) []
  /\ Zod.path (Zod.mkIssue Zod.too_small "Title must be at least 3 characters" ["title"])
     = ["title"].
Proof.
  split; [reflexivity|].
  exact (proj1 (proj2 (rejection_has_one_issue (mkValues "ab") _ _ eq_refl))).
Defined.

(* ===================================================================== *)
(** ** The request log along a trace *)
(* ===================================================================== *)

(** The handlers send what the table says, and read the clock once for
    each stamp they send. *)
Lemma log_step env w e :
  requests (step env w e) = requests w ++ sent env w e
  /\ dates (step env w e) = dates w + length (flat_map stamps (sent env w e))
  /\ flat_map stamps (sent env w e)
     = map (toISOString env)
         (seq (dates w) (length (flat_map stamps (sent env w e)))).
Proof.
  destruct e as [f s | f | t | v | t | t | | | s | | | | d];
    try (cbn; rewrite ?app_nil_r, ?Nat.add_0_r, ?Nat.add_1_r; now repeat split).
  - destruct f; cbn; rewrite app_nil_r, Nat.add_0_r; now repeat split.
  - destruct f; submit_cases w; cbn in R; unfold sent; rewrite R.
    + cbn. rewrite Nat.add_succ_r, Nat.add_1_r. now repeat split.
    + cbn. rewrite app_nil_r, Nat.add_0_r. now repeat split.
    + unfold onEditSubmit, exec, bind, read; cbn.
      destruct (editingTodo w) eqn:E; cbn; rewrite ?E; cbn;
        rewrite ?app_nil_r, ?Nat.add_0_r, ?Nat.add_1_r; now repeat split.
    + cbn. rewrite app_nil_r, Nat.add_0_r. now repeat split.
  - unfold step, handler, startVoiceInput, exec, bind, ask; cbn.
    destruct (webkitSpeechRecognition_in_window env); cbn;
      rewrite app_nil_r, Nat.add_0_r; now repeat split.
Qed.

(** Only the resolution of the list query writes the list. *)
Lemma todos_step env w e :
  todos (step env w e)
    = match e with
      | QueryData data => Some data
      | _ => todos w
      end.
Proof.
  destruct e as [f s | f | t | v | t | t | | | s | | | | d]; try reflexivity.
  - now destruct f.
  - destruct f; submit_cases w; try reflexivity.
    unfold onEditSubmit, exec, bind, read; cbn.
    now destruct (editingTodo w).
  - unfold step, handler, startVoiceInput, exec, bind, ask; cbn.
    now destruct (webkitSpeechRecognition_in_window env).
Qed.

(** Only [startVoiceInput] shows a notice, and only on a host without the
    capability. *)
Lemma alerts_step env w e :
  alerts (step env w e)
    = match e with
      | ClickMic =>
          if webkitSpeechRecognition_in_window env
          then alerts w
          else alerts w ++ ["Speech recognition not supported"]
      | _ => alerts w
      end.
Proof.
  destruct e as [f s | f | t | v | t | t | | | s | | | | d]; try reflexivity.
  - now destruct f.
  - destruct f; submit_cases w; try reflexivity.
    unfold onEditSubmit, exec, bind, read; cbn.
    now destruct (editingTodo w).
  - unfold step, handler, startVoiceInput, exec, bind, ask; cbn.
    now destruct (webkitSpeechRecognition_in_window env).
Qed.

Lemma micClicks_snoc es e :
  micClicks (es ++ [e])
    = match e with
      | ClickMic => S (micClicks es)
      | _ => micClicks es
      end.
Proof.
  induction es as [| e' es IH].
  - now destruct e.
  - destruct e'; cbn; rewrite IH; now destruct e.
Qed.

(** What an event sends is a well-formed create request, if it is one. *)
Lemma sent_freshTodo env w e : forallb freshTodo (sent env w e) = true.
Proof.
  destruct e as [f s | f | t | v | t | t | | | s | | | | d]; try reflexivity.
  destruct f; unfold sent.
  - destruct (zodResolver (values (form w))) as [data | err] eqn:R;
      [|reflexivity].
    destruct (zodResolver_inl _ _ R) as [-> [Lo Hi]].
    cbn -[Nat.leb String.length].
    apply Nat.leb_le in Lo. apply Nat.leb_le in Hi.
    now rewrite Lo, Hi.
  - now destruct (zodResolver (values (editForm w))), (editingTodo w).
Qed.

Lemma sent_addressed env w e : forallb addressed (sent env w e) = true.
Proof.
  destruct e as [f s | f | t | v | t | t | | | s | | | | d]; try reflexivity.
  - destruct f; unfold sent.
    + now destruct (zodResolver (values (form w))).
    + destruct (zodResolver (values (editForm w))), (editingTodo w);
        try reflexivity.
      cbn. now rewrite Z.eqb_refl.
  - cbn. now rewrite Z.eqb_refl.
Qed.

(** Whatever the user and the host do, every create request the component
    has sent carries a title of 3 to 20 characters, [completed = false] and
    [progress = 0]: nothing but a validated submission of the create form
    sends one. *)
Theorem create_requests_are_validated env es :
  forallb freshTodo (requests (run env es mount)) = true.
Proof.
  induction es as [| e es IH] using rev_ind; [reflexivity|].
  rewrite run_snoc. rewrite (proj1 (log_step env _ e)), forallb_app, IH.
  apply sent_freshTodo.
Qed.

(** Whatever the user and the host do, every update request goes to the
    URL of the record its body carries: the id in the path is the id in
    the body. *)
Theorem update_requests_are_addressed env es :
  forallb addressed (requests (run env es mount)) = true.
Proof.
  induction es as [| e es IH] using rev_ind; [reflexivity|].
  rewrite run_snoc. rewrite (proj1 (log_step env _ e)), forallb_app, IH.
  apply sent_addressed.
Qed.

(** The stamps of the requests sent, in the order sent, are the readings
    of the clock in the order taken: every reading ends up in exactly one
    request, and no request carries a stamp of its own making.  A create
    request takes two readings, an update one, a delete or a fetch none. *)
Theorem stamps_are_the_clock_readings env es :
  flat_map stamps (requests (run env es mount))
    = map (toISOString env) (seq 0 (dates (run env es mount))).
Proof.
  induction es as [| e es IH] using rev_ind; [reflexivity|].
  rewrite run_snoc.
  destruct (log_step env (run env es mount) e) as (Hr & Hd & Hs).
  remember (length (flat_map stamps (sent env (run env es mount) e))) as k.
  rewrite Hr, Hd, flat_map_app, IH, Hs, seq_app, map_app. reflexivity.
Qed.

(** No handler edits the list: once the list has arrived, whatever is
    toggled, edited, deleted, created, typed or said, the component holds
    the same data and the rows show the same keys, titles, checkboxes and
    progress until the list query resolves again. *)
Theorem list_changes_only_with_query_data env es w data :
  todos w = Some data ->
  forallb (fun e => negb (isQueryData e)) es = true ->
  todos (run env es w) = Some data
  /\ rows (run env es w)
     = Some (map (fun todo => (Todo.id todo, Todo.title todo,
                               Todo.completed todo, Todo.progress todo)) data).
Proof.
  intros T Q.
  assert (K : todos (run env es w) = Some data).
  { induction es as [| e es IH] using rev_ind; [exact T|].
    rewrite forallb_app in Q. apply andb_prop in Q. destruct Q as [Q Qe].
    rewrite run_snoc, todos_step, (IH Q).
    destruct e; try reflexivity. discriminate. }
  split; [exact K|].
  unfold rows, render. rewrite K. cbn. now rewrite map_map.
Qed.

Lemma list_changes_only_with_query_data_witness :
  todos listed = Some [buyMilk; walkDog]
  /\ forallb (fun e => negb (isQueryData e))
       [CheckedChange buyMilk; ClickDelete walkDog; MutationSuccess] = true
  /\ rows (run silentHost [CheckedChange buyMilk; ClickDelete walkDog; MutationSuccess]
             listed)
     = Some [(1%Z, "Buy milk", false, 0%Z); (2%Z, "Walk the dog", true, 40%Z)].
Proof.
  split; [reflexivity|]. split; [reflexivity|].
  exact (proj2 (list_changes_only_with_query_data silentHost
                  [CheckedChange buyMilk; ClickDelete walkDog; MutationSuccess]
                  listed [buyMilk; walkDog] eq_refl eq_refl)).
Defined.

(** Every click on the microphone button does exactly one of two things.
    On a host with the capability it starts one session, for "en-US", not
    continuous, without interim results, and never shows a notice; on a
    host without it shows the notice and never starts a session. *)
Theorem mic_clicks_start_or_notify env es :
  if webkitSpeechRecognition_in_window env
  then alerts (run env es mount) = []
       /\ recognitions (run env es mount)
          = repeat (mkRecognition "en-US" false false) (micClicks es)
  else recognitions (run env es mount) = []
       /\ alerts (run env es mount)
          = repeat "Speech recognition not supported" (micClicks es).
Proof.
  induction es as [| e es IH] using rev_ind.
  - now destruct (webkitSpeechRecognition_in_window env).
  - rewrite run_snoc, alerts_step, recognitions_step, micClicks_snoc.
    destruct (webkitSpeechRecognition_in_window env);
      destruct IH as [-> ->]; destruct e; try (now split);
      split; try reflexivity; cbn [repeat]; now rewrite repeat_cons.
Qed.

(* ===================================================================== *)
(** ** How the handlers compose *)
(* ===================================================================== *)

(** A valid create submission, in full: the request goes out and the
    create form is reset; the dialog, the selection, the listening flag,
    the edit form and the list stay as they are. *)
Lemma create_submission_world env w :
  (3 <= String.length (title (values (form w))) <= 20)%nat ->
  step env w (Submit createForm)
    = mkWorld (editingTodo w) (isEditDialogOpen w) (isListening w)
        useForm (editForm w) (todos w) (S (S (dates w)))
        (requests w
         ++ [POST_todos
               (CreateBody.mk (title (values (form w))) false 0
                  (toISOString env (dates w)) (toISOString env (S (dates w))))])
        (alerts w) (recognitions w).
Proof.
  intros H. rewrite step_Submit.
  rewrite (handleSubmit_valid _ _ createForm _ _ (zodResolver_valid _ H)).
  reflexivity.
Qed.

(** Submitting the create form twice in a row creates one todo: the first
    submission resets the form, so the second finds an empty title, is
    rejected with the message of the lower bound, and sends nothing. *)
Theorem double_submit_creates_once env w :
  (3 <= String.length (title (values (form w))) <= 20)%nat ->
  requests (run env [Submit createForm; Submit createForm] w)
    = requests w
      ++ [POST_todos
            (CreateBody.mk (title (values (form w))) false 0
               (toISOString env (dates w)) (toISOString env (S (dates w))))]
  /\ form (run env [Submit createForm; Submit createForm] w)
     = mkForm defaultValues (Some tooShort).
Proof.
  intros H. cbn [run fold_left].
  rewrite (create_submission_world env w H).
  split; reflexivity.
Qed.

Lemma double_submit_creates_once_witness :
  (3 <= String.length (title (values (form (typing createForm "Buy oat milk")))) <= 20)%nat
  /\ requests (run silentHost [Submit createForm; Submit createForm]
                 (typing createForm "Buy oat milk"))
     = [GET_todos;
        POST_todos (CreateBody.mk "Buy oat milk" false 0
                      "2026-11-03T09:00:00.000Z" "2026-11-03T09:00:00.001Z")].
Proof.
  split; [cbn; lia|].
  apply (proj1 (double_submit_creates_once silentHost
                  (typing createForm "Buy oat milk") ltac:(cbn; lia))).
Defined.

(** Opening the dialog on a row and saving without typing resends the
    record as it is, with only [updatedAt] refreshed, when the record's
    title is within the bounds; the dialog closes, the selection is
    dropped and the edit form is reset. *)
Theorem save_unchanged_resends_record env w todo :
  (3 <= String.length (Todo.title todo) <= 20)%nat ->
  run env [ClickEdit todo; Submit editingForm] w
    = mkWorld None false (isListening w) (form w) useForm (todos w)
        (S (dates w))
        (requests w
         ++ [PUT_todos (Todo.id todo)
               (Todo.mk (Todo.id todo) (Todo.title todo) (Todo.createdAt todo)
                  (toISOString env (dates w))
                  (Todo.completed todo) (Todo.progress todo))])
        (alerts w) (recognitions w).
Proof.
  intros H. cbn [run fold_left].
  rewrite (edit_submission_world env (step env w (ClickEdit todo)) todo);
    [reflexivity | reflexivity | exact H].
Qed.

Lemma save_unchanged_resends_record_witness :
  (3 <= String.length (Todo.title walkDog) <= 20)%nat
  /\ requests (run silentHost [ClickEdit walkDog; Submit editingForm] listed)
     = [GET_todos;
        PUT_todos 2 (Todo.mk 2 "Walk the dog" "2026-11-03T08:59:00.000Z"
                       "2026-11-03T09:00:00.000Z" true 40)]
  /\ isEditDialogOpen (run silentHost [ClickEdit walkDog; Submit editingForm] listed)
     = false.
Proof.
  split; [cbn; lia|].
  rewrite (save_unchanged_resends_record silentHost listed walkDog ltac:(cbn; lia)).
  split; reflexivity.
Defined.

(** The store is not bound by the form's limits.  For a record whose title
    is shorter than 3 or longer than 20 characters, saving without typing
    is rejected: nothing is sent and the clock is not read, the dialog
    stays open on that record, and the edit form shows the record's title
    with the error of the bound it violates, the lower one below 3 and the
    upper one above 20. *)
Theorem save_unchanged_rejected_out_of_bounds env w todo :
  (String.length (Todo.title todo) < 3 \/ 20 < String.length (Todo.title todo))%nat ->
  run env [ClickEdit todo; Submit editingForm] w
    = mkWorld (Some todo) true (isListening w) (form w)
        (mkForm (mkValues (Todo.title todo))
           (Some (if (String.length (Todo.title todo) <? 3)%nat
                  then tooShort else tooLong)))
        (todos w) (dates w) (requests w) (alerts w) (recognitions w).
Proof.
  intros H. cbn [run fold_left]. rewrite step_Submit.
  set (w1 := step env w (ClickEdit todo)).
  assert (R : zodResolver (values (getForm editingForm w1))
              = inr (if (String.length (Todo.title todo) <? 3)%nat
                     then tooShort else tooLong)).
  { destruct (Nat.ltb_spec (String.length (Todo.title todo)) 3).
    - now apply zodResolver_short.
    - apply zodResolver_long. cbn. lia. }
  rewrite (handleSubmit_invalid _ _ _ _ _ R). reflexivity.
Qed.

Lemma save_unchanged_rejected_out_of_bounds_witness :
  admissible silentHost
    [QueryData [buyMilk; longTitled]; ClickEdit longTitled; Submit editingForm] mount
  = true
  /\ (String.length (Todo.title longTitled) < 3
      \/ 20 < String.length (Todo.title longTitled))%nat
  /\ requests (run silentHost [ClickEdit longTitled; Submit editingForm] stored)
     = [GET_todos]
  /\ isEditDialogOpen (run silentHost [ClickEdit longTitled; Submit editingForm] stored)
     = true
  /\ errors (editForm (run silentHost [ClickEdit longTitled; Submit editingForm] stored))
     = Some tooLong.
Proof.
  assert (H : (String.length (Todo.title longTitled) < 3
               \/ 20 < String.length (Todo.title longTitled))%nat)
    by (right; cbn; lia).
  split; [reflexivity|]. split; [exact H|].
  rewrite (save_unchanged_rejected_out_of_bounds silentHost stored longTitled H).
  repeat split.
Defined.

(** A create submission that is rejected, in full: only the error
    arrives in the create form. *)
Lemma create_submission_rejected env w :
  (String.length (title (values (form w))) < 3
   \/ 20 < String.length (title (values (form w))))%nat ->
  step env w (Submit createForm)
    = set_form
        (mkForm (values (form w))
           (Some (if (String.length (title (values (form w))) <? 3)%nat
                  then tooShort else tooLong))) w.
Proof.
  intros H. rewrite step_Submit.
  assert (R : zodResolver (values (getForm createForm w))
              = inr (if (String.length (title (values (form w))) <? 3)%nat
                     then tooShort else tooLong)).
  { destruct (Nat.ltb_spec (String.length (title (values (form w)))) 3).
    - now apply zodResolver_short.
    - apply zodResolver_long. cbn. lia. }
  now rewrite (handleSubmit_invalid _ _ _ _ _ R).
Qed.

(** A recognition result, whatever its transcript, only fills the create
    form: the transcript replaces the title, the listening flag is reset,
    and nothing is sent or submitted.  Submitting afterwards creates a todo
    with the transcript as title when it has 3 to 20 characters, and is
    rejected with the error of the violated bound, sending nothing, when
    it has not. *)
Theorem voice_result_fills_form env w transcript :
  step env w (ResultAvailable transcript)
    = set_isListening false
        (set_form (mkForm (mkValues transcript) (errors (form w))) w)
  /\ requests (step env w (ResultAvailable transcript)) = requests w
  /\ ((3 <= String.length transcript <= 20)%nat ->
      requests (run env [ResultAvailable transcript; Submit createForm] w)
        = requests w
          ++ [POST_todos
                (CreateBody.mk transcript false 0
                   (toISOString env (dates w)) (toISOString env (S (dates w))))])
  /\ ((String.length transcript < 3 \/ 20 < String.length transcript)%nat ->
      requests (run env [ResultAvailable transcript; Submit createForm] w)
        = requests w
      /\ form (run env [ResultAvailable transcript; Submit createForm] w)
         = mkForm (mkValues transcript)
             (Some (if (String.length transcript <? 3)%nat
                    then tooShort else tooLong))).
Proof.
  split; [reflexivity|]. split; [reflexivity|]. split.
  - intros H. cbn [run fold_left].
    rewrite (create_submission_world env (step env w (ResultAvailable transcript)));
      [reflexivity | exact H].
  - intros H. cbn [run fold_left].
    rewrite (create_submission_rejected env (step env w (ResultAvailable transcript)));
      [split; reflexivity | exact H].
Qed.

Lemma voice_result_fills_form_witness :
  admissible speakingHost
    [QueryData [buyMilk; walkDog]; ClickMic; SessionStarted;
     ResultAvailable "Call the bank"; Submit createForm] mount = true
  /\ (3 <= String.length "Call the bank" <= 20)%nat
  /\ requests (run speakingHost [ResultAvailable "Call the bank"; Submit createForm] hearing)
     = [GET_todos;
        POST_todos (CreateBody.mk "Call the bank" false 0
                      "2026-11-03T09:00:00.000Z" "2026-11-03T09:00:00.001Z")]
  /\ (String.length "Remind me to call the bank tomorrow" < 3
      \/ 20 < String.length "Remind me to call the bank tomorrow")%nat
  /\ requests (run speakingHost
                 [ResultAvailable "Remind me to call the bank tomorrow"; Submit createForm]
                 hearing)
     = [GET_todos]
  /\ isListening (step speakingHost hearing (ResultAvailable "Call the bank")) = false.
Proof.
  split; [reflexivity|]. split; [cbn; lia|]. split.
  - apply (proj1 (proj2 (proj2 (voice_result_fills_form speakingHost hearing
                                  "Call the bank")))).
    cbn; lia.
  - split; [right; cbn; lia|]. split.
    + apply (proj2 (proj2 (proj2 (voice_result_fills_form speakingHost hearing
                                    "Remind me to call the bank tomorrow")))).
      right; cbn; lia.
    + now rewrite (proj1 (voice_result_fills_form speakingHost hearing "Call the bank")).
Defined.

(** A dialog is shown only while the flag is set. *)
Lemma dialogShown_open w : dialogShown w = true -> isEditDialogOpen w = true.
Proof.
  unfold dialogShown. intros H.
  destruct (isEditDialogOpen w) eqn:O; [reflexivity|].
  destruct (todos w) as [data |] eqn:T.
  - pose proof (openDialogs_length w data T) as L. rewrite O in L.
    destruct (openDialogs w); [discriminate H | discriminate L].
  - unfold openDialogs, render in H. rewrite T in H. discriminate.
Qed.

(** In every state the view can reach, saving the dialog with a title of
    3 to 20 characters sends exactly one update request, for the todo of
    the latest click on an edit button, and closes the dialog: the
    submission without a todo being edited does not arise. *)
Theorem save_updates_last_selected env es :
  admissible env (es ++ [Submit editingForm]) mount = true ->
  (3 <= String.length (title (values (editForm (run env es mount)))) <= 20)%nat ->
  exists todo,
    lastSelected es None = Some todo
    /\ requests (run env (es ++ [Submit editingForm]) mount)
       = requests (run env es mount)
         ++ [PUT_todos (Todo.id todo)
               (Todo.mk (Todo.id todo)
                  (title (values (editForm (run env es mount))))
                  (Todo.createdAt todo)
                  (toISOString env (dates (run env es mount)))
                  (Todo.completed todo) (Todo.progress todo))]
    /\ isEditDialogOpen (run env (es ++ [Submit editingForm]) mount) = false
    /\ editingTodo (run env (es ++ [Submit editingForm]) mount) = None.
Proof.
  rewrite admissible_snoc, run_snoc.
  intros A H. apply andb_prop in A. destruct A as [A En].
  cbn in En. apply dialogShown_open in En.
  destruct (open_dialog_follows_selection env es A En) as (todo & L & E).
  exists todo. split; [exact L|].
  rewrite (edit_submission_world env _ todo E H). repeat split.
Qed.

Lemma save_updates_last_selected_witness :
  admissible silentHost
    ([QueryData [buyMilk; walkDog]; ClickEdit buyMilk; OpenChange false;
      ClickEdit walkDog; Change editingForm "Walk the cat"]
     ++ [Submit editingForm]) mount = true
  /\ (3 <= String.length (title (values (editForm (run silentHost
         [QueryData [buyMilk; walkDog]; ClickEdit buyMilk; OpenChange false;
          ClickEdit walkDog; Change editingForm "Walk the cat"] mount)))) <= 20)%nat
  /\ exists todo,
       lastSelected
         [QueryData [buyMilk; walkDog]; ClickEdit buyMilk; OpenChange false;
          ClickEdit walkDog; Change editingForm "Walk the cat"] None = Some todo
       /\ Todo.id todo = 2%Z.
Proof.
  split; [reflexivity|]. split; [cbn; lia|].
  destruct (save_updates_last_selected silentHost
              [QueryData [buyMilk; walkDog]; ClickEdit buyMilk; OpenChange false;
               ClickEdit walkDog; Change editingForm "Walk the cat"]
              eq_refl ltac:(cbn; lia)) as (todo & L & _).
  exists todo. split; [exact L|].
  cbn in L. injection L as <-. reflexivity.
Defined.
